(** * Agent messaging runtime: reference behaviors and handlers

    A shallow embedding of [implementations.py] and [main.py].

    Python text is modelled by [string], each character being a code point
    below 256.  No code point above that range lower-cases to a letter of
    the needles ["hello"] and ["crypto"], so the substring tests of the
    handlers are decided on this range exactly as on full Unicode text. *)

From Stdlib Require Import ZArith NArith Bool List Ascii String Lia QArith.
From Stdlib Require Import Numbers.DecimalString.
From stdpp Require Import base option gmap strings.

Import ListNotations.
Local Open Scope string_scope.

(** ** Python strings *)

Module PyStr.

(** [str.lower] on one code point below 256: the ASCII capitals and the
    Latin-1 capitals U+00C0..U+00DE (the multiplication sign U+00D7 apart)
    move up by 32, every other code point is its own lower case. *)
Definition lower_char (c : ascii) : ascii :=
  let n := N_of_ascii c in
  if ((65 <=? n) && (n <=? 90))%N
     || ((192 <=? n) && (n <=? 222) && negb (n =? 215))%N
  then ascii_of_N (n + 32)
  else c.

(** [s.lower()] *)
Fixpoint lower (s : string) : string :=
  match s with
  | EmptyString => EmptyString
  | String c s' => String (lower_char c) (lower s')
  end.

(** [s.startswith(p)] *)
Fixpoint startswith (s p : string) {struct p} : bool :=
  match p with
  | EmptyString => true
  | String a p' =>
      match s with
      | EmptyString => false
      | String b s' => Ascii.eqb a b && startswith s' p'
      end
  end.

(** [sub in s] *)
Fixpoint contains (sub s : string) : bool :=
  startswith s sub
  || match s with
     | EmptyString => false
     | String _ s' => contains sub s'
     end.

End PyStr.

(** ** Messages *)

(** Modelled from the spec: the enumeration [MessageType] of module
    [common], which is not among the sources.  The five tags are the ones
    [implementations.py] uses; [CUSTOM] stands for any further member. *)
Inductive MessageType : Type :=
| RANDOM
| HELLO
| BALANCE
| CRYPTO
| TRANSFER
| CUSTOM (tag : string).

Definition MessageType_eqb (a b : MessageType) : bool :=
  match a, b with
  | RANDOM, RANDOM | HELLO, HELLO | BALANCE, BALANCE
  | CRYPTO, CRYPTO | TRANSFER, TRANSFER => true
  | CUSTOM s, CUSTOM t => String.eqb s t
  | _, _ => false
  end.

(** Python values that travel in metadata or come back from the client. *)
Inductive PyVal : Type :=
| PNone
| PBool (b : bool)
| PInt (z : Z)
| PStr (s : string).

(** [str(v)] *)
Definition py_str (v : PyVal) : string :=
  match v with
  | PNone => "None"
  | PBool true => "True"
  | PBool false => "False"
  | PInt z => NilZero.string_of_int (Z.to_int z)
  | PStr s => s
  end.

(** Modelled from the spec: the class [Message] of module [common]: a type
    tag, a text payload and an optional mapping from string keys to
    values; the mapping is absent ([None]) when the constructor is given
    none. *)
Record Message : Type := mkMessage {
  type : MessageType;
  content : string;
  metadata : option (gmap string PyVal)
}.

(** [Message(type=t, content=c)] *)
Definition Message_plain (t : MessageType) (c : string) : Message :=
  mkMessage t c None.

(** ** Logging *)

Inductive LogRecord : Type :=
| LogInfo (msg : string)
| LogError (msg : string).

(** ** HelloMessageHandler *)

Module HelloMessageHandler.

Definition can_handle (message : Message) : bool :=
  (MessageType_eqb (type message) HELLO
   || PyStr.contains "hello" (PyStr.lower (content message)))
  && negb (PyStr.startswith (content message) "Hello back!").

(** The response list of [handle]. *)
Definition handle_result (message : Message) : list Message :=
  let response_content := "Hello back! Received: " ++ content message in
  [ mkMessage HELLO response_content
      (Some (<["original_message" := PStr (content message)]>
             (<["is_response" := PBool true]> ∅))) ].

(** What [handle] writes through [logger.info]. *)
Definition handle_log (message : Message) : list LogRecord :=
  [ LogInfo ("Received hello message: " ++ content message) ].

(** [handle]: the records logged and the messages returned. *)
Definition handle (message : Message) : list LogRecord * list Message :=
  (handle_log message, handle_result message).

End HelloMessageHandler.

(** ** Effects: state, exceptions, try/except *)

(** A computation reads and updates a state [S] and either returns a value
    or raises an exception of type [E]; what it did to the state before
    raising stays done. *)
Module Eff.

Section Monad.
Context {S E : Type}.

Definition M (A : Type) : Type := S -> (E + A) * S.

Definition ret {A} (a : A) : M A := fun s => (inr a, s).

Definition raise {A} (e : E) : M A := fun s => (inl e, s).

Definition bind {A B} (c : M A) (k : A -> M B) : M B :=
  fun s =>
    match c s with
    | (inl e, s') => (inl e, s')
    | (inr a, s') => k a s'
    end.

(** A call that may raise, lifted into the computation. *)
Definition lift {A} (r : E + A) : M A := fun s => (r, s).

Definition modify (f : S -> S) : M unit := fun s => (inr tt, f s).

Definition gets {A} (f : S -> A) : M A := fun s => (inr (f s), s).

(** [try: body  except <caught> as e: handler e]; an exception that
    [caught] rejects passes through. *)
Definition try_except {A} (body : M A) (caught : E -> bool)
    (handler : E -> M A) : M A :=
  fun s =>
    match body s with
    | (inl e, s') => if caught e then handler e s' else (inl e, s')
    | (inr a, s') => (inr a, s')
    end.
End Monad.

Arguments M : clear implicits.

End Eff.

Notation "'let*' x ':=' c 'in' k" := (Eff.bind c (fun x => k))
  (at level 10, x name, c at level 100, k at level 200).
Notation "c ';;;' k" := (Eff.bind c (fun _ => k))
  (at level 100, k at level 200, right associativity).

(** ** Exceptions *)

(** An instance of Python's [Exception]: its class name and its [str()]. *)
Record PyException : Type := mkException {
  exc_class : string;
  exc_str : string
}.

Definition AttributeError (msg : string) := mkException "AttributeError" msg.
Definition TypeError (msg : string) := mkException "TypeError" msg.
Definition ConnectionError (msg : string) := mkException "ConnectionError" msg.

(** ** The blockchain client *)

(** The client the handlers talk to is outside the repository: every
    operation is a function that returns a value or raises an instance of
    [Exception].  Objects the code only passes on (a contract function, a
    transaction dictionary, raw bytes) are kept by a textual handle. *)

Record TxParams : Type := mkTxParams {
  tx_from : string;
  tx_gas : Z;
  tx_gasPrice : PyVal;
  tx_nonce : PyVal
}.

Record SignedTransaction : Type := mkSigned {
  (** [None]: the object has no attribute [rawTransaction]. *)
  rawTransaction : option string
}.

Record HexBytes : Type := mkHexBytes { hex : string }.

(** [self.token_contract] *)
Record Contract : Type := mkContract {
  (** [functions.balanceOf(a).call()] *)
  balanceOf : string -> PyException + PyVal;
  (** [functions.transfer(target, amount)] *)
  transfer : PyVal -> Z -> PyException + string;
  (** [<fn>.build_transaction(params)] *)
  build_transaction : string -> TxParams -> PyException + string
}.

(** [self.web3] *)
Record Web3 : Type := mkWeb3 {
  (** [from_wei(v, 'ether')]; the number that comes back is kept by its
      [str()]. *)
  from_wei : PyVal -> PyException + string;
  eth_get_transaction_count : string -> PyException + PyVal;
  eth_gas_price : PyException + PyVal;
  eth_account_sign_transaction : string -> string -> PyException + SignedTransaction;
  eth_send_raw_transaction : string -> PyException + HexBytes
}.

(** [web3.to_wei(n, 'ether')]: the library's unit conversion, 10^18 wei to
    the ether. *)
Definition to_wei_ether (n : Z) : Z := (n * 10 ^ 18)%Z.

Inductive ClientCall : Type :=
| CallBalanceOf (address : string)
| CallFromWei (v : PyVal)
| CallGetTransactionCount (address : string)
| CallTransfer (target : PyVal) (amount : Z)
| CallGasPrice
| CallBuildTransaction (fn : string) (params : TxParams)
| CallSignTransaction (txn : string) (key : string)
| CallSendRawTransaction (raw : string).

(** What a behavior or handler leaves behind: the log and the calls made
    on the client, oldest first. *)
Record World : Type := mkWorld {
  world_log : list LogRecord;
  world_calls : list ClientCall
}.

Definition World0 : World := mkWorld [] [].

Definition Run (A : Type) : Type := Eff.M World PyException A.

Definition logger_info (msg : string) : Run unit :=
  Eff.modify (fun w => mkWorld (world_log w ++ [LogInfo msg]) (world_calls w)).

Definition logger_error (msg : string) : Run unit :=
  Eff.modify (fun w => mkWorld (world_log w ++ [LogError msg]) (world_calls w)).

(** One operation of the client: the call is recorded, then its result
    (or its exception) comes back. *)
Definition call {A} (c : ClientCall) (r : PyException + A) : Run A :=
  Eff.modify (fun w => mkWorld (world_log w) (world_calls w ++ [c])) ;;;
  Eff.lift r.

(** [except Exception]: every [PyException] is an instance of it. *)
Definition is_Exception (e : PyException) : bool := true.

(** [v < w] for an integer [w]: Python compares [int] and [bool] (an
    [int] subclass) and raises [TypeError] on [None] and [str]. *)
Definition py_lt_int (v : PyVal) (w : Z) : PyException + bool :=
  match v with
  | PInt z => inr (z <? w)%Z
  | PBool b => inr ((if b then 1 else 0) <? w)%Z
  | PNone => inl (TypeError "'<' not supported between instances of 'NoneType' and 'int'")
  | PStr _ => inl (TypeError "'<' not supported between instances of 'str' and 'int'")
  end.

(** [message.metadata.get(key, default)]: [AttributeError] when the
    message carries no mapping. *)
Definition metadata_get (message : Message) (key : string) (default : PyVal)
  : PyException + PyVal :=
  match metadata message with
  | None => inl (AttributeError "'NoneType' object has no attribute 'get'")
  | Some md => inr (match md !! key with Some v => v | None => default end)
  end.

(** ** RandomMessageBehavior *)

(** A message bus is referred to by its address in the store of buses. *)
Definition bus_ref : Type := nat.

Module RandomMessageBehavior.

Definition WORDS : list string :=
  ["hello"; "sun"; "world"; "space"; "moon"; "crypto";
   "sky"; "ocean"; "universe"; "human"].

Record t : Type := mk {
  interval : Q;
  outbox : bus_ref
}.

(** [__init__]: the base class stores the interval it is given. *)
Definition init (outbox : bus_ref) : t := mk 2 outbox.

(** [random.sample] on a population of at most 21 elements: the pool is a
    copy of the population; each round draws [j = randbelow(n - i)], takes
    [pool[j]] and moves the last live element of the pool into slot [j].
    Each element of [draws] is what the generator yields for one round,
    [randbelow(m)] being its remainder modulo [m]; [live] is [n - i]. *)
Fixpoint sample_pool (pool : list string) (live : nat) (draws : list nat)
  : list string :=
  match draws with
  | [] => []
  | r :: draws' =>
      let j := r mod live in
      nth j pool ""
      :: sample_pool (<[j := nth (live - 1) pool ""]> pool) (live - 1) draws'
  end.

(** [random.sample(self.WORDS, 2)] *)
Definition sample2 (r0 r1 : nat) : list string :=
  sample_pool WORDS (length WORDS) [r0; r1].

(** [execute], the two draws of the generator being [r0] and [r1]. *)
Definition execute (self : t) (r0 r1 : nat) : list Message :=
  let words := sample2 r0 r1 in
  let content := nth 0 words "" ++ " " ++ nth 1 words "" in
  [ Message_plain RANDOM content ].

End RandomMessageBehavior.

(** ** ERC20BalanceChecker *)

Module ERC20BalanceChecker.

Record t : Type := mk {
  interval : Q;
  web3 : Web3;
  token_contract : Contract;
  address : string
}.

Definition init (web3 : Web3) (token_contract : Contract) (address : string) : t :=
  mk 10 web3 token_contract address.

(** The [try] block of [execute]. *)
Definition execute_try (self : t) : Run (list Message) :=
  let* balance :=
    call (CallBalanceOf (address self))
         (balanceOf (token_contract self) (address self)) in
  let* balance_eth :=
    call (CallFromWei balance) (from_wei (web3 self) balance) in
  logger_info ("Token balance for " ++ address self ++ ": "
               ++ balance_eth ++ " ETH") ;;;
  Eff.ret
    [ mkMessage BALANCE balance_eth
        (Some (<["address" := PStr (address self)]>
               (<["raw_balance" := PStr (py_str balance)]>
                (<["unit" := PStr "ether"]> ∅)))) ].

(** The [except Exception as e] block of [execute]. *)
Definition execute_except (e : PyException) : Run (list Message) :=
  logger_error ("Error checking balance: " ++ exc_str e) ;;;
  Eff.ret [].

Definition execute (self : t) : Run (list Message) :=
  Eff.try_except (execute_try self) is_Exception execute_except.

End ERC20BalanceChecker.

(** ** CryptoTransferHandler *)

Module CryptoTransferHandler.

Record t : Type := mk {
  web3 : Web3;
  token_contract : Contract;
  source_address : string;
  private_key : string
}.

Definition default_target : string :=
  "0x0123456789012345678901234567890123456789".

Definition can_handle (message : Message) : bool :=
  MessageType_eqb (type message) CRYPTO
  || PyStr.contains "crypto" (PyStr.lower (content message)).

(** The [try] block of [handle]. *)
Definition handle_try (self : t) (message : Message) : Run (list Message) :=
  let* target_address :=
    Eff.lift (metadata_get message "target_address" (PStr default_target)) in
  let* balance :=
    call (CallBalanceOf (source_address self))
         (balanceOf (token_contract self) (source_address self)) in
  let* short := Eff.lift (py_lt_int balance (to_wei_ether 1)) in
  if short : bool then
    logger_error "Insufficient balance for transfer" ;;;
    Eff.ret []
  else
    let* nonce :=
      call (CallGetTransactionCount (source_address self))
           (eth_get_transaction_count (web3 self) (source_address self)) in
    let* fn :=
      call (CallTransfer target_address (to_wei_ether 1))
           (transfer (token_contract self) target_address (to_wei_ether 1)) in
    let* gas_price := call CallGasPrice (eth_gas_price (web3 self)) in
    let params := mkTxParams (source_address self) 100000 gas_price nonce in
    let* transfer_txn :=
      call (CallBuildTransaction fn params)
           (build_transaction (token_contract self) fn params) in
    let* signed_txn :=
      call (CallSignTransaction transfer_txn (private_key self))
           (eth_account_sign_transaction (web3 self) transfer_txn
              (private_key self)) in
    let* raw :=
      Eff.lift
        match rawTransaction signed_txn with
        | Some raw => inr raw
        | None =>
            inl (AttributeError
                   "'SignedTransaction' object has no attribute 'rawTransaction'")
        end in
    let* tx_hash :=
      call (CallSendRawTransaction raw)
           (eth_send_raw_transaction (web3 self) raw) in
    logger_info ("Transfer initiated: " ++ hex tx_hash) ;;;
    Eff.ret
      [ mkMessage TRANSFER "Transfer successful"
          (Some (<["tx_hash" := PStr (hex tx_hash)]>
                 (<["source_address" := PStr (source_address self)]>
                  (<["target_address" := target_address]> ∅)))) ].

(** The [except Exception as e] block of [handle]. *)
Definition handle_except (e : PyException) : Run (list Message) :=
  logger_error ("Error handling transfer: " ++ exc_str e) ;;;
  Eff.ret [].

Definition handle (self : t) (message : Message) : Run (list Message) :=
  Eff.try_except (handle_try self message) is_Exception handle_except.

End CryptoTransferHandler.

(** ** MessageBus *)

(** Modelled from the spec: the class [MessageBus] of module [common],
    which is not among the sources: an unbounded FIFO queue; [put]
    enqueues and never blocks, [get] removes and returns the oldest
    pending element and suspends the caller while there is none.  The
    queue is written over any element type; the runtime stores
    [Message]s, and a schedule of producers stores each with the name of
    the producer that put it. *)
Module MessageBus.

Section Queue.
Context {T : Type}.

(** Pending elements, oldest first. *)
Definition t : Type := list T.

Definition empty : t := [].

Definition put (x : T) (q : t) : t := (q ++ [x])%list.

(** [None]: nothing is pending and the consumer stays suspended. *)
Definition get (q : t) : option (T * t) :=
  match q with
  | [] => None
  | x :: q' => Some (x, q')
  end.
End Queue.

Arguments t : clear implicits.

(** One step of a schedule on a bus: producer [p] puts [m], or the single
    consumer asks for the next element. *)
Inductive op : Type :=
| Put (p : nat) (m : Message)
| Get.

(** Runs a schedule; returns what the consumer received, in order, and
    what is left pending.  A [Get] on an empty bus receives nothing. *)
Fixpoint run (ops : list op) (q : t (nat * Message))
  : list (nat * Message) * t (nat * Message) :=
  match ops with
  | [] => ([], q)
  | Put p m :: ops' => run ops' (put (p, m) q)
  | Get :: ops' =>
      match get q with
      | None => run ops' q
      | Some (x, q') => let (rcv, q'') := run ops' q' in (x :: rcv, q'')
      end
  end.

(** The messages producer [p] puts during a schedule, in its order. *)
Fixpoint puts_of (p : nat) (ops : list op) : list Message :=
  match ops with
  | [] => []
  | Put p' m :: ops' =>
      if Nat.eqb p' p then m :: puts_of p ops' else puts_of p ops'
  | Get :: ops' => puts_of p ops'
  end.

(** The messages of producer [p] in a list of tagged messages. *)
Fixpoint from_producer (p : nat) (l : list (nat * Message)) : list Message :=
  match l with
  | [] => []
  | (p', m) :: l' =>
      if Nat.eqb p' p then m :: from_producer p l' else from_producer p l'
  end.

End MessageBus.

(** ** Agents and the composition of [main] *)

(** The objects [setup_agent] registers, by class and constructor
    arguments; [os.getenv] yields [None] for a variable that is not set. *)
Inductive BehaviorObj : Type :=
| RandomMessageBehaviorObj (outbox : bus_ref)
| ERC20BalanceCheckerObj (address : option string).

Inductive HandlerObj : Type :=
| HelloMessageHandlerObj
| CryptoTransferHandlerObj (source_address private_key : option string).

(** Modelled from the spec: the class [Agent] of module [common], which is
    not among the sources: a name, an inbox bus, an outbox bus that may be
    reassigned, and the registered behaviors and handlers in order.
    [Agent(name)] creates its own two buses. *)
Record Agent : Type := mkAgent {
  name : string;
  inbox : bus_ref;
  outbox : bus_ref;
  behaviors : list BehaviorObj;
  handlers : list HandlerObj
}.

Module Main.

(** What [main] does to agents and to the terminal, in order. *)
Inductive event : Type :=
| EvAgent (name : string) (inbox outbox : bus_ref)
| EvRegisterBehavior (agent : string) (b : BehaviorObj)
| EvRegisterHandler (agent : string) (h : HandlerObj)
| EvSetOutbox (agent : string) (bus : bus_ref)
| EvRun (agent : string)
| EvStop (agent : string)
| EvPrint (line : string).

(** What [main] may have raised to it. *)
Inductive raised : Type :=
| KeyboardInterrupt
| Exc (e : PyException)
| OtherBaseException (class : string).

(** The surroundings of [main]: the environment variables, and the
    outcome of each step that leaves the repository. *)
Record Env : Type := mkEnv {
  getenv : string -> option string;
  (** [Web3(Web3.HTTPProvider(url)).is_connected()] *)
  is_connected : raised + bool;
  (** opening and parsing [./token_abi.json] *)
  load_abi : raised + unit;
  (** [web3.eth.contract(address=..., abi=...)] *)
  eth_contract : raised + unit;
  (** how [asyncio.gather(agent1.run(), agent2.run())] ends *)
  gather : raised + unit
}.

(** The store of buses, the local variables [agent1] and [agent2] of
    [main] (unbound while [None]) and the events so far. *)
Record State : Type := mkState {
  buses : gmap bus_ref (MessageBus.t Message);
  next_bus : bus_ref;
  agent1 : option Agent;
  agent2 : option Agent;
  trace : list event
}.

Definition State0 : State := mkState ∅ 0 None None [].

Definition Prog (A : Type) : Type := Eff.M State raised A.

Definition emit (ev : event) : Prog unit :=
  Eff.modify (fun s =>
    mkState (buses s) (next_bus s) (agent1 s) (agent2 s) (trace s ++ [ev])).

(** [MessageBus()]: a fresh, empty bus in the store. *)
Definition new_bus : Prog bus_ref :=
  fun s =>
    (inr (next_bus s),
     mkState (<[next_bus s := MessageBus.empty]> (buses s)) (S (next_bus s))
             (agent1 s) (agent2 s) (trace s)).

(** [Agent(name)] *)
Definition Agent_new (name : string) : Prog Agent :=
  let* i := new_bus in
  let* o := new_bus in
  emit (EvAgent name i o) ;;;
  Eff.ret (mkAgent name i o [] []).

Definition register_behavior (a : Agent) (b : BehaviorObj) : Prog Agent :=
  emit (EvRegisterBehavior (name a) b) ;;;
  Eff.ret (mkAgent (name a) (inbox a) (outbox a) (behaviors a ++ [b]) (handlers a)).

Definition register_handler (a : Agent) (h : HandlerObj) : Prog Agent :=
  emit (EvRegisterHandler (name a) h) ;;;
  Eff.ret (mkAgent (name a) (inbox a) (outbox a) (behaviors a) (handlers a ++ [h])).

(** [a.outbox = bus] *)
Definition set_outbox (a : Agent) (bus : bus_ref) : Prog Agent :=
  emit (EvSetOutbox (name a) bus) ;;;
  Eff.ret (mkAgent (name a) (inbox a) bus (behaviors a) (handlers a)).

Definition setup_agent (env : Env) (name : string) : Prog Agent :=
  let* agent := Agent_new name in
  let* agent := register_behavior agent (RandomMessageBehaviorObj (outbox agent)) in
  let* agent :=
    register_behavior agent (ERC20BalanceCheckerObj (getenv env "ETHEREUM_ADDRESS")) in
  let* agent := register_handler agent HelloMessageHandlerObj in
  let* agent :=
    register_handler agent
      (CryptoTransferHandlerObj (getenv env "ETHEREUM_ADDRESS")
         (getenv env "PRIVATE_KEY")) in
  Eff.ret agent.

Definition setup_web3 (env : Env) : Prog unit :=
  let* connected := Eff.lift (is_connected env) in
  if connected : bool then Eff.ret tt
  else Eff.raise (Exc (ConnectionError "Failed to connect to the Ethereum node")).

Definition bind_agent1 (a : Agent) : Prog unit :=
  Eff.modify (fun s =>
    mkState (buses s) (next_bus s) (Some a) (agent2 s) (trace s)).

Definition bind_agent2 (a : Agent) : Prog unit :=
  Eff.modify (fun s =>
    mkState (buses s) (next_bus s) (agent1 s) (Some a) (trace s)).

(** [if 'agent1' in locals(): agent1.stop()], and the same for [agent2]. *)
Definition stop_bound : Prog unit :=
  let* a1 := Eff.gets agent1 in
  match a1 with Some a => emit (EvStop (name a)) | None => Eff.ret tt end ;;;
  let* a2 := Eff.gets agent2 in
  match a2 with Some a => emit (EvStop (name a)) | None => Eff.ret tt end.

(** The two [except] clauses of [main]: [KeyboardInterrupt] and
    [Exception]; any other [BaseException] passes through. *)
Definition main_catches (r : raised) : bool :=
  match r with
  | KeyboardInterrupt | Exc _ => true
  | OtherBaseException _ => false
  end.

Definition main (env : Env) : Prog unit :=
  Eff.try_except
    (setup_web3 env ;;;
     Eff.lift (load_abi env) ;;;
     Eff.lift (eth_contract env) ;;;
     let* a1 := setup_agent env "Agent1" in
     bind_agent1 a1 ;;;
     let* a2 := setup_agent env "Agent2" in
     bind_agent2 a2 ;;;
     let* a1 := set_outbox a1 (inbox a2) in
     bind_agent1 a1 ;;;
     let* a2 := set_outbox a2 (inbox a1) in
     bind_agent2 a2 ;;;
     emit (EvRun (name a1)) ;;;
     emit (EvRun (name a2)) ;;;
     Eff.lift (gather env))
    main_catches
    (fun r =>
       match r with
       | Exc e =>
           emit (EvPrint ("An error occurred: " ++ exc_str e)) ;;;
           stop_bound
       | _ =>
           emit (EvPrint (String "010" "Shutting down agents...")) ;;;
           stop_bound
       end).

(** The events that connect or start an agent. *)
Definition is_wiring (ev : event) : bool :=
  match ev with EvSetOutbox _ _ => true | _ => false end.

Definition is_run (ev : event) : bool :=
  match ev with EvRun _ => true | _ => false end.

(** [main] ended before any agent existed: nothing was wired or run. *)
Definition unwired (s : State) : Prop :=
  agent1 s = None /\ agent2 s = None
  /\ filter is_wiring (trace s) = [] /\ filter is_run (trace s) = [].

(** Both agents were built with their own buses; then, and only then, the
    outbox of each was set to the inbox of the other; then, and only
    then, both were run. *)
Definition wired (s : State) : Prop :=
  exists (i1 o1 i2 o2 : bus_ref) (a1 a2 : Agent) (before after : list event),
    trace s
    = (before
       ++ [ EvSetOutbox "Agent1" i2; EvSetOutbox "Agent2" i1;
            EvRun "Agent1"; EvRun "Agent2" ]
       ++ after)%list
    /\ In (EvAgent "Agent1" i1 o1) before
    /\ In (EvAgent "Agent2" i2 o2) before
    /\ filter is_wiring before = [] /\ filter is_run before = []
    /\ filter is_wiring after = [] /\ filter is_run after = []
    /\ NoDup [i1; o1; i2; o2]
    /\ agent1 s = Some a1 /\ agent2 s = Some a2
    /\ inbox a1 = i1 /\ outbox a1 = i2
    /\ inbox a2 = i2 /\ outbox a2 = i1.

End Main.

(** The messages a run hands back: none when it raised. *)
Definition returned {A} (out : (PyException + list A) * World) : list A :=
  match fst out with
  | inl _ => []
  | inr l => l
  end.

(** A successful transfer response. *)
Definition transfer_response (r : Message) : Prop :=
  type r = TRANSFER /\ content r = "Transfer successful".

(** ** The calls of one transfer *)

(** The client operation a recorded call stands for. *)
Definition call_name (c : ClientCall) : string :=
  match c with
  | CallBalanceOf _ => "balanceOf"
  | CallFromWei _ => "from_wei"
  | CallGetTransactionCount _ => "get_transaction_count"
  | CallTransfer _ _ => "transfer"
  | CallGasPrice => "gas_price"
  | CallBuildTransaction _ _ => "build_transaction"
  | CallSignTransaction _ _ => "sign_transaction"
  | CallSendRawTransaction _ => "send_raw_transaction"
  end.

(** The operations [CryptoTransferHandler.handle] invokes when nothing
    stops it, in the order of the source. *)
Definition transfer_protocol : list string :=
  [ "balanceOf"; "get_transaction_count"; "transfer"; "gas_price";
    "build_transaction"; "sign_transaction"; "send_raw_transaction" ].

(** The arguments [handle] fixes itself: the source address, one ether in
    wei, a gas limit of 100000 and the private key of the handler. *)
Definition call_as_written (self : CryptoTransferHandler.t) (c : ClientCall)
  : Prop :=
  match c with
  | CallBalanceOf a | CallGetTransactionCount a =>
      a = CryptoTransferHandler.source_address self
  | CallTransfer _ amount => amount = to_wei_ether 1
  | CallBuildTransaction _ params =>
      tx_from params = CryptoTransferHandler.source_address self
      /\ tx_gas params = 100000%Z
  | CallSignTransaction _ key => key = CryptoTransferHandler.private_key self
  | CallGasPrice | CallSendRawTransaction _ => True
  | CallFromWei _ => False
  end.

(** The target [handle] transfers to: the value under "target_address"
    when the mapping has one, the fixed address otherwise. *)
Definition chosen_target (md : gmap string PyVal) : PyVal :=
  match md !! "target_address" with
  | Some v => v
  | None => PStr CryptoTransferHandler.default_target
  end.

(** ** The store of buses *)


(** ** The script *)

(** The block under [if __name__ == "__main__"] of [main.py], the
    environment being the one [load_dotenv] leaves. *)
Module Script.

Definition required_env_vars : list string :=
  [ "RPC_NODE_URL"; "TOKEN_ADDRESS"; "ETHEREUM_ADDRESS"; "PRIVATE_KEY" ].

(** [not os.getenv(var)]: the variable is not set, or set to the empty
    string. *)
Definition not_getenv (env : Main.Env) (var : string) : bool :=
  match Main.getenv env var with
  | None => true
  | Some EmptyString => true
  | Some (String _ _) => false
  end.

(** [[var for var in required_env_vars if not os.getenv(var)]] *)
Definition missing_vars (env : Main.Env) : list string :=
  List.filter (not_getenv env) required_env_vars.

(** [sep.join(l)] *)
Fixpoint join (sep : string) (l : list string) : string :=
  match l with
  | [] => ""
  | [x] => x
  | x :: l' => x ++ sep ++ join sep l'
  end.

(** What the script did: it left through [exit(code)] before anything
    else, or it reached [asyncio.run(main())] and [main] ended as [r].
    How [asyncio.run] ends the script from there (it passes on what
    [main] raised, and turns the cancellation it delivers to [main] on
    Ctrl-C into [KeyboardInterrupt]) is not part of the model. *)
Inductive outcome : Type :=
| Exit (code : Z)
| Started (r : Main.raised + unit).

Definition script (env : Main.Env) (s : Main.State) : outcome * Main.State :=
  match missing_vars env with
  | [] =>
      let (r, s') := Main.main env s in (Started r, s')
  | missing =>
      (Exit 1,
       Main.mkState (Main.buses s) (Main.next_bus s) (Main.agent1 s)
         (Main.agent2 s)
         (Main.trace s
          ++ [Main.EvPrint ("Missing required environment variables: "
                            ++ join ", " missing)])%list)
  end.

End Script.

(** ** Proof steps for effectful code *)

Ltac run_eff :=
  cbv [Eff.try_except Eff.bind Eff.ret Eff.lift Eff.modify Eff.raise Eff.gets
       call logger_info logger_error is_Exception];
  cbn [fst snd world_log world_calls].

(** Case analysis on the innermost pending result of the client. *)
Ltac case_oracle :=
  match goal with
  | |- context [match ?x with _ => _ end] =>
      lazymatch x with
      | context [match _ with _ => _ end] => fail
      | _ => let E := fresh "E" in destruct x eqn:E
      end
  end; cbn [fst snd world_log world_calls].

(** Evaluates [main] on the surroundings at hand. *)
Ltac eval_main :=
  match goal with
  | |- context [Main.main ?env ?s0] =>
      let v := eval vm_compute in (Main.main env s0) in
      replace (Main.main env s0) with v by (vm_compute; reflexivity)
  end.

(** Opens [CryptoTransferHandler.handle] down to the results of the client. *)
Ltac open_handle :=
  unfold CryptoTransferHandler.handle, CryptoTransferHandler.handle_try,
    CryptoTransferHandler.handle_except, metadata_get;
  run_eff.

(** Opens [ERC20BalanceChecker.execute] in the same way. *)
Ltac open_execute :=
  unfold ERC20BalanceChecker.execute, ERC20BalanceChecker.execute_try,
    ERC20BalanceChecker.execute_except;
  run_eff.

(** The calls a run added to those of [w], read off the final list. *)
Ltac give_new_calls :=
  first
    [ exists []; split; [now rewrite app_nil_r|]
    | eexists; split; [rewrite <- ?app_assoc; reflexivity|] ].



(** ** Sample inputs *)

Module Sample.

(** A message that [RandomMessageBehavior] can emit. *)
Definition hello_crypto : Message := Message_plain RANDOM "hello crypto".

(** A token contract whose balance query ends as given and whose other
    operations succeed. *)
Definition contract (balance : PyException + PyVal) : Contract :=
  mkContract (fun _ => balance)
             (fun _ _ => inr "transfer")
             (fun _ _ => inr "txn").

(** A node on which every operation succeeds. *)
Definition node : Web3 :=
  mkWeb3 (fun v => inr (py_str v))
         (fun _ => inr (PInt 7))
         (inr (PInt 3))
         (fun _ _ => inr (mkSigned (Some "raw")))
         (fun _ => inr (mkHexBytes "0xfeed")).

Definition unreachable : PyException := ConnectionError "node unreachable".

Definition checker (balance : PyException + PyVal) : ERC20BalanceChecker.t :=
  ERC20BalanceChecker.init node (contract balance) "0xabc".

Definition handler (balance : PyException + PyVal) : CryptoTransferHandler.t :=
  CryptoTransferHandler.mk node (contract balance) "0xabc" "key".

(** A crypto request that names no target. *)
Definition request : Message := mkMessage CRYPTO "send crypto" (Some ∅).

(** A schedule on one bus: producer 1 puts A, B and C while producer 2
    puts X, and the consumer asks five times. *)
Definition A : Message := Message_plain RANDOM "sun moon".
Definition B : Message := Message_plain RANDOM "sky ocean".
Definition C : Message := Message_plain RANDOM "world space".
Definition X : Message := Message_plain HELLO "hello".

Definition schedule : list MessageBus.op :=
  [ MessageBus.Put 1 A; MessageBus.Get; MessageBus.Get; MessageBus.Put 2 X;
    MessageBus.Put 1 B; MessageBus.Put 1 C; MessageBus.Get; MessageBus.Get;
    MessageBus.Get ].

(** Surroundings in which every step of [main] up to the start of the
    agents succeeds and the run is interrupted from the keyboard. *)
Definition env : Main.Env :=
  Main.mkEnv (fun _ => Some "set") (inr true) (inr tt) (inr tt)
             (inl Main.KeyboardInterrupt).

(** A crypto request that names its target. *)
Definition request_to : Message :=
  mkMessage CRYPTO "send crypto" (Some (<["target_address" := PStr "0xdef"]> ∅)).

(** A crypto request without metadata. *)
Definition bare_request : Message := Message_plain CRYPTO "send crypto".

(** Surroundings in which the node does not answer. *)
Definition env_offline : Main.Env :=
  Main.mkEnv (fun _ => Some "set") (inr false) (inr tt) (inr tt) (inr tt).

(** Surroundings in which the private key is set to the empty string and
    the token address is not set. *)
Definition env_incomplete : Main.Env :=
  Main.mkEnv
    (fun var =>
       if String.eqb var "PRIVATE_KEY" then Some ""
       else if String.eqb var "TOKEN_ADDRESS" then None
       else Some "set")
    (inr true) (inr tt) (inr tt) (inr tt).

End Sample.

(** * Properties *)

Section PyStrFacts.

Lemma startswith_spec (s p : string) :
  PyStr.startswith s p = true <-> exists r, s = p ++ r.
Proof.
  revert s; induction p as [|a p IH]; intros s; simpl.
  - split; [intros _; exists s; reflexivity | intros _; reflexivity].
  - destruct s as [|b s]; simpl.
    + split; [discriminate | intros [r Hr]; discriminate].
    + rewrite andb_true_iff, Ascii.eqb_eq, IH. split.
      * intros [-> [r ->]]. exists r; reflexivity.
      * intros [r Hr]. injection Hr as -> ->. split; [reflexivity | eauto].
Qed.

Lemma contains_spec (sub s : string) :
  PyStr.contains sub s = true <-> exists pre post, s = pre ++ sub ++ post.
Proof.
  induction s as [|c s IH]; simpl.
  - rewrite orb_false_r, startswith_spec. split.
    + intros [r Hr]. exists "", r. exact Hr.
    + intros [pre [post H]]. destruct pre; simpl in H; [eauto | discriminate].
  - rewrite orb_true_iff, startswith_spec, IH. split.
    + intros [[r Hr] | [pre [post H]]].
      * exists "", r. exact Hr.
      * exists (String c pre), post. simpl. now rewrite H.
    + intros [pre [post H]]. destruct pre as [|d pre]; simpl in H.
      * left; eauto.
      * right. injection H as _ H. eauto.
Qed.

Lemma lower_char_idem (c : ascii) :
  PyStr.lower_char (PyStr.lower_char c) = PyStr.lower_char c.
Proof.
  destruct c as [[] [] [] [] [] [] [] []]; reflexivity.
Qed.

Lemma lower_idem (s : string) : PyStr.lower (PyStr.lower s) = PyStr.lower s.
Proof.
  induction s as [|c s IH]; simpl; [reflexivity|].
  now rewrite lower_char_idem, IH.
Qed.

End PyStrFacts.

(** ** The Hello handler *)

Section HelloFacts.

Lemma MessageType_eqb_eq (a b : MessageType) :
  MessageType_eqb a b = true <-> a = b.
Proof.
  destruct a, b; simpl; try (split; [discriminate | congruence]);
    try (split; reflexivity).
  rewrite String.eqb_eq. split; congruence.
Qed.

Lemma startswith_app (p r : string) : PyStr.startswith (p ++ r) p = true.
Proof. apply startswith_spec. now exists r. Qed.

(** Every response of the Hello handler carries the marker. *)
Lemma hello_response_marked (m r : Message) :
  In r (snd (HelloMessageHandler.handle m)) ->
  PyStr.startswith (content r) "Hello back!" = true.
Proof.
  simpl. intros [<- | []]. simpl.
  change (PyStr.startswith ("Hello back!" ++ (" Received: " ++ content m))
            "Hello back!" = true).
  apply startswith_app.
Qed.

Lemma hello_marked_refused (r : Message) :
  PyStr.startswith (content r) "Hello back!" = true ->
  HelloMessageHandler.can_handle r = false.
Proof.
  intros H. unfold HelloMessageHandler.can_handle. rewrite H.
  apply andb_false_r.
Qed.

End HelloFacts.

(** C1. For the message of type HELLO with content "hello world" (whatever
    its metadata), [can_handle] is true and [handle] returns exactly one
    message, whose content is "Hello back! Received: hello world" and
    whose metadata maps "original_message" to "hello world". *)
Theorem hello_world_scenario (md : option (gmap string PyVal)) :
  let m := mkMessage HELLO "hello world" md in
  HelloMessageHandler.can_handle m = true
  /\ exists r,
       snd (HelloMessageHandler.handle m) = [r]
       /\ content r = "Hello back! Received: hello world"
       /\ (metadata r ≫= fun d => d !! "original_message")
          = Some (PStr "hello world").
Proof.
  simpl. split; [reflexivity|].
  eexists. split; [reflexivity|]. split; [reflexivity|].
  simpl. apply lookup_insert_eq.
Qed.

(** C4. [can_handle] of the Hello handler is true exactly when the type is
    HELLO or the lower-cased content has "hello" as a substring, and the
    content does not begin with "Hello back!". *)
Theorem hello_can_handle_characterized (m : Message) :
  HelloMessageHandler.can_handle m = true
  <-> (type m = HELLO
       \/ exists pre post, PyStr.lower (content m) = pre ++ "hello" ++ post)
      /\ ~ (exists rest, content m = "Hello back!" ++ rest).
Proof.
  unfold HelloMessageHandler.can_handle.
  rewrite andb_true_iff, orb_true_iff, negb_true_iff.
  rewrite MessageType_eqb_eq, contains_spec.
  rewrite <- not_true_iff_false, startswith_spec. reflexivity.
Qed.

(** ** The transfer handler and the balance checker *)

Section TransferFacts.

Variable self : CryptoTransferHandler.t.
Variable message : Message.
Variable w : World.

(** [handle] always returns: nothing, or one transfer response. *)
Lemma handle_returns :
  exists l w',
    CryptoTransferHandler.handle self message w = (inr l, w')
    /\ (l = [] \/ exists r, l = [r] /\ transfer_response r).
Proof.
  unfold CryptoTransferHandler.handle, CryptoTransferHandler.handle_try,
    CryptoTransferHandler.handle_except.
  run_eff.
  repeat case_oracle;
    try (do 2 eexists; split; [reflexivity | left; reflexivity]).
  do 2 eexists; split; [reflexivity | right].
  eexists; split; [reflexivity | split; reflexivity].
Qed.

End TransferFacts.

(** C2. No self-loop: every response of the Hello handler begins with
    "Hello back!" and is refused by its [can_handle]; every response of the
    transfer handler has type TRANSFER and content "Transfer successful"
    and is refused by its [can_handle]. *)
Theorem no_self_loop :
  (forall m : Message,
      Forall (fun r => PyStr.startswith (content r) "Hello back!" = true
                       /\ HelloMessageHandler.can_handle r = false)
             (snd (HelloMessageHandler.handle m)))
  /\ (forall (self : CryptoTransferHandler.t) (m : Message) (w : World),
         Forall (fun r => type r = TRANSFER
                          /\ content r = "Transfer successful"
                          /\ CryptoTransferHandler.can_handle r = false)
                (returned (CryptoTransferHandler.handle self m w))).
Proof.
  split.
  - intros m. apply List.Forall_forall. intros r Hr.
    pose proof (hello_response_marked m r Hr) as Hs.
    split; [exact Hs | now apply hello_marked_refused].
  - intros self m w.
    destruct (handle_returns self m w) as (l & w' & -> & [-> | (r & -> & Ht & Hc)]);
      unfold returned; simpl; constructor; [|constructor].
    split; [exact Ht|]. split; [exact Hc|].
    unfold CryptoTransferHandler.can_handle. rewrite Ht, Hc. reflexivity.
Qed.

(** C3, as stated, fails: the message of type RANDOM with content
    "hello crypto", which [RandomMessageBehavior.execute] emits for the
    draws 0 and 5, is accepted by both handlers. *)
Lemma predicates_overlap_on_hello_crypto :
  RandomMessageBehavior.execute (RandomMessageBehavior.init 0) 0 5
  = [Sample.hello_crypto]
  /\ HelloMessageHandler.can_handle Sample.hello_crypto = true
  /\ CryptoTransferHandler.can_handle Sample.hello_crypto = true.
Proof. repeat split. Qed.

(** C3, amended. Both predicates accept a message exactly when its content
    does not begin with "Hello back!" and it has type HELLO and mentions
    "crypto", or has type CRYPTO and mentions "hello", or mentions both
    (the mentions being substrings of the lower-cased content). *)
Theorem overlap_characterized (m : Message) :
  HelloMessageHandler.can_handle m && CryptoTransferHandler.can_handle m = true
  <-> PyStr.startswith (content m) "Hello back!" = false
      /\ ((type m = HELLO
           /\ PyStr.contains "crypto" (PyStr.lower (content m)) = true)
          \/ (type m = CRYPTO
              /\ PyStr.contains "hello" (PyStr.lower (content m)) = true)
          \/ (PyStr.contains "hello" (PyStr.lower (content m)) = true
              /\ PyStr.contains "crypto" (PyStr.lower (content m)) = true)).
Proof.
  unfold HelloMessageHandler.can_handle, CryptoTransferHandler.can_handle.
  rewrite <- !MessageType_eqb_eq.
  set (h := PyStr.contains "hello" (PyStr.lower (content m))).
  set (c := PyStr.contains "crypto" (PyStr.lower (content m))).
  set (b := PyStr.startswith (content m) "Hello back!").
  destruct (type m); cbn [MessageType_eqb];
    destruct h, c, b; cbn [andb orb negb]; intuition congruence.
Qed.

(** C5. Neither [ERC20BalanceChecker.execute] nor
    [CryptoTransferHandler.handle] raises, whatever the client does; when
    the [try] block raises [e], the run logs one error record that carries
    [str(e)] and returns the empty list. *)
Theorem failures_contained :
  (forall (self : ERC20BalanceChecker.t) (w : World),
      (exists l w', ERC20BalanceChecker.execute self w = (inr l, w'))
      /\ forall e w1,
           ERC20BalanceChecker.execute_try self w = (inl e, w1) ->
           ERC20BalanceChecker.execute self w
           = (inr [],
              mkWorld (world_log w1
                       ++ [LogError ("Error checking balance: " ++ exc_str e)])
                      (world_calls w1)))
  /\ (forall (self : CryptoTransferHandler.t) (m : Message) (w : World),
         (exists l w', CryptoTransferHandler.handle self m w = (inr l, w'))
         /\ forall e w1,
              CryptoTransferHandler.handle_try self m w = (inl e, w1) ->
              CryptoTransferHandler.handle self m w
              = (inr [],
                 mkWorld (world_log w1
                          ++ [LogError ("Error handling transfer: " ++ exc_str e)])
                         (world_calls w1))).
Proof.
  split.
  - intros self w. split.
    + unfold ERC20BalanceChecker.execute, ERC20BalanceChecker.execute_try,
        ERC20BalanceChecker.execute_except.
      run_eff. repeat case_oracle; do 2 eexists; reflexivity.
    + intros e w1 H. unfold ERC20BalanceChecker.execute, Eff.try_except.
      rewrite H. reflexivity.
  - intros self m w. split.
    + destruct (handle_returns self m w) as (l & w' & H & _). eauto.
    + intros e w1 H. unfold CryptoTransferHandler.handle, Eff.try_except.
      rewrite H. reflexivity.
Qed.

Lemma failures_contained_witness :
  ERC20BalanceChecker.execute (Sample.checker (inl Sample.unreachable)) World0
  = (inr [],
     mkWorld [LogError "Error checking balance: node unreachable"]
             [CallBalanceOf "0xabc"])
  /\ CryptoTransferHandler.handle (Sample.handler (inl Sample.unreachable))
       Sample.request World0
     = (inr [],
        mkWorld [LogError "Error handling transfer: node unreachable"]
                [CallBalanceOf "0xabc"]).
Proof.
  split.
  - exact (proj2 (proj1 failures_contained
                      (Sample.checker (inl Sample.unreachable)) World0)
             Sample.unreachable (mkWorld [] [CallBalanceOf "0xabc"]) eq_refl).
  - exact (proj2 (proj2 failures_contained
                      (Sample.handler (inl Sample.unreachable))
                      Sample.request World0)
             Sample.unreachable (mkWorld [] [CallBalanceOf "0xabc"]) eq_refl).
Defined.

(** C9. A message the transfer handler accepts, whose metadata is a
    mapping without the key "target_address": when the balance is at least
    one ether in wei (10^18) and every operation of the client succeeds
    (the signed transaction having its [rawTransaction]), [handle] asks
    the contract to transfer 10^18 wei to the address
    "0x0123456789012345678901234567890123456789" and returns one TRANSFER
    message whose metadata maps "target_address" to that address. *)
Theorem default_transfer_target
    (self : CryptoTransferHandler.t) (m : Message) (md : gmap string PyVal)
    (w : World) (b : Z) (nonce gas_price : PyVal) (fn txn raw : string)
    (signed : SignedTransaction) (tx_hash : HexBytes) :
  let src := CryptoTransferHandler.source_address self in
  let target := PStr "0x0123456789012345678901234567890123456789" in
  let one_ether := 1000000000000000000%Z in
  let params := mkTxParams src 100000 gas_price nonce in
  CryptoTransferHandler.can_handle m = true ->
  metadata m = Some md ->
  md !! "target_address" = None ->
  balanceOf (CryptoTransferHandler.token_contract self) src = inr (PInt b) ->
  (one_ether <= b)%Z ->
  eth_get_transaction_count (CryptoTransferHandler.web3 self) src = inr nonce ->
  transfer (CryptoTransferHandler.token_contract self) target one_ether
  = inr fn ->
  eth_gas_price (CryptoTransferHandler.web3 self) = inr gas_price ->
  build_transaction (CryptoTransferHandler.token_contract self) fn params
  = inr txn ->
  eth_account_sign_transaction (CryptoTransferHandler.web3 self) txn
    (CryptoTransferHandler.private_key self) = inr signed ->
  rawTransaction signed = Some raw ->
  eth_send_raw_transaction (CryptoTransferHandler.web3 self) raw = inr tx_hash ->
  exists r w',
    CryptoTransferHandler.handle self m w = (inr [r], w')
    /\ type r = TRANSFER
    /\ content r = "Transfer successful"
    /\ (metadata r ≫= fun d => d !! "target_address") = Some target
    /\ world_calls w'
       = (world_calls w
          ++ [ CallBalanceOf src;
               CallGetTransactionCount src;
               CallTransfer target one_ether;
               CallGasPrice;
               CallBuildTransaction fn params;
               CallSignTransaction txn (CryptoTransferHandler.private_key self);
               CallSendRawTransaction raw ])%list.
Proof.
  intros src target one_ether params _ Hmd Hkey Hbal Hge Hnonce Hfn Hgas Htxn
    Hsig Hraw Hsend.
  assert (Hlt : (b <? one_ether)%Z = false) by (apply Z.ltb_ge; exact Hge).
  unfold CryptoTransferHandler.handle, CryptoTransferHandler.handle_try,
    CryptoTransferHandler.handle_except, metadata_get.
  run_eff.
  change (to_wei_ether 1) with one_ether.
  change (PStr CryptoTransferHandler.default_target) with target.
  subst src target one_ether params.
  rewrite Hmd, Hkey, Hbal. cbn [py_lt_int]. rewrite Hlt, Hnonce, Hfn, Hgas.
  rewrite Htxn, Hsig.
  rewrite Hraw, Hsend. cbn [world_log world_calls].
  do 2 eexists. split; [reflexivity|].
  cbn [type content metadata world_calls mbind option_bind].
  split; [reflexivity|]. split; [reflexivity|]. split.
  - change (<["tx_hash" := PStr (hex tx_hash)]>
              (<["source_address" :=
                   PStr (CryptoTransferHandler.source_address self)]>
                 (<["target_address" :=
                      PStr "0x0123456789012345678901234567890123456789"]>
                    (∅ : gmap string PyVal)))
            !! "target_address"
            = Some (PStr "0x0123456789012345678901234567890123456789")).
    rewrite lookup_insert_ne by discriminate.
    rewrite lookup_insert_ne by discriminate.
    apply lookup_insert_eq.
  - rewrite <- !app_assoc. reflexivity.
Qed.

Lemma default_transfer_target_witness :
  exists r w',
    CryptoTransferHandler.handle (Sample.handler (inr (PInt (2 * 10 ^ 18))))
      Sample.request World0 = (inr [r], w')
    /\ type r = TRANSFER
    /\ content r = "Transfer successful"
    /\ (metadata r ≫= fun d => d !! "target_address")
       = Some (PStr "0x0123456789012345678901234567890123456789")
    /\ world_calls w'
       = [ CallBalanceOf "0xabc";
           CallGetTransactionCount "0xabc";
           CallTransfer (PStr "0x0123456789012345678901234567890123456789")
             1000000000000000000;
           CallGasPrice;
           CallBuildTransaction "transfer"
             (mkTxParams "0xabc" 100000 (PInt 3) (PInt 7));
           CallSignTransaction "txn" "key";
           CallSendRawTransaction "raw" ].
Proof.
  apply (default_transfer_target
           (Sample.handler (inr (PInt (2 * 10 ^ 18)))) Sample.request ∅ World0
           (2 * 10 ^ 18) (PInt 7) (PInt 3) "transfer" "txn" "raw"
           (mkSigned (Some "raw")) (mkHexBytes "0xfeed"));
    try reflexivity.
  lia.
Defined.

(** C10. A message the transfer handler accepts, when the balance of the
    source address is an integer strictly below one ether in wei:
    [handle] returns the empty list and the only operation of the client it
    may have invoked is the balance query. *)
Theorem insufficient_balance_guard
    (self : CryptoTransferHandler.t) (m : Message) (w : World) (b : Z) :
  let src := CryptoTransferHandler.source_address self in
  CryptoTransferHandler.can_handle m = true ->
  balanceOf (CryptoTransferHandler.token_contract self) src = inr (PInt b) ->
  (b < to_wei_ether 1)%Z ->
  exists w',
    CryptoTransferHandler.handle self m w = (inr [], w')
    /\ (world_calls w' = world_calls w
        \/ world_calls w' = (world_calls w ++ [CallBalanceOf src])%list).
Proof.
  intros src _ Hbal Hlt.
  assert (Hb : (b <? to_wei_ether 1)%Z = true) by (apply Z.ltb_lt; exact Hlt).
  unfold CryptoTransferHandler.handle, CryptoTransferHandler.handle_try,
    CryptoTransferHandler.handle_except, metadata_get.
  run_eff. subst src.
  destruct (metadata m) as [md|]; cbn [world_log world_calls].
  - rewrite Hbal. cbn [py_lt_int]. rewrite Hb. cbn [world_log world_calls].
    eexists. split; [reflexivity | right; reflexivity].
  - eexists. split; [reflexivity | left; reflexivity].
Qed.

Lemma insufficient_balance_guard_witness :
  exists w',
    CryptoTransferHandler.handle (Sample.handler (inr (PInt 5)))
      Sample.request World0 = (inr [], w')
    /\ (world_calls w' = []
        \/ world_calls w' = [CallBalanceOf "0xabc"]).
Proof.
  apply (insufficient_balance_guard (Sample.handler (inr (PInt 5)))
           Sample.request World0 5); try reflexivity.
Defined.

(** ** The random behavior *)

(** C8. [RandomMessageBehavior] is built with the interval 2, and whatever
    the two draws of the generator, [execute] returns exactly one message,
    of type RANDOM, whose content is two distinct words of [WORDS] with one
    space between them. *)
Theorem random_message_shape (outbox : bus_ref) (r0 r1 : nat) :
  RandomMessageBehavior.interval (RandomMessageBehavior.init outbox) = 2%Q
  /\ exists r w0 w1,
       RandomMessageBehavior.execute (RandomMessageBehavior.init outbox) r0 r1
       = [r]
       /\ type r = RANDOM
       /\ content r = w0 ++ " " ++ w1
       /\ In w0 RandomMessageBehavior.WORDS
       /\ In w1 RandomMessageBehavior.WORDS
       /\ w0 <> w1.
Proof.
  split; [reflexivity|].
  unfold RandomMessageBehavior.execute, RandomMessageBehavior.sample2.
  change (length RandomMessageBehavior.WORDS) with 10%nat.
  cbn [RandomMessageBehavior.sample_pool nth].
  change (10 - 1)%nat with 9%nat.
  pose proof (Nat.mod_upper_bound r0 10 ltac:(lia)) as H0.
  pose proof (Nat.mod_upper_bound r1 9 ltac:(lia)) as H1.
  revert H0 H1. generalize (r0 mod 10)%nat (r1 mod 9)%nat. intros j0 j1 H0 H1.
  eexists _, _, _. split; [reflexivity|]. split; [reflexivity|].
  split; [reflexivity|].
  do 10 (destruct j0 as [|j0];
         [ do 9 (destruct j1 as [|j1];
                 [ cbn; repeat split;
                   [ tauto | tauto | discriminate ] | ]);
           exfalso; lia | ]).
  exfalso; lia.
Qed.

(** ** The message bus *)

Section BusFacts.

Lemma from_producer_app (p : nat) (l1 l2 : list (nat * Message)) :
  MessageBus.from_producer p (l1 ++ l2)
  = (MessageBus.from_producer p l1 ++ MessageBus.from_producer p l2)%list.
Proof.
  induction l1 as [|[p' m] l1 IH]; simpl; [reflexivity|].
  destruct (Nat.eqb p' p); simpl; now rewrite IH.
Qed.

(** What the consumer received from [p], followed by what of [p] is still
    pending, is what of [p] was pending at the start followed by what [p]
    put, in the order of its puts. *)
Lemma run_preserves_order (p : nat) (ops : list MessageBus.op) :
  forall q : MessageBus.t (nat * Message),
    (MessageBus.from_producer p (fst (MessageBus.run ops q))
     ++ MessageBus.from_producer p (snd (MessageBus.run ops q)))%list
    = (MessageBus.from_producer p q ++ MessageBus.puts_of p ops)%list.
Proof.
  induction ops as [|[p' m|] ops IH]; intros q.
  - simpl. now rewrite app_nil_r.
  - cbn [MessageBus.run MessageBus.puts_of]. rewrite IH.
    unfold MessageBus.put. rewrite from_producer_app. simpl.
    destruct (Nat.eqb p' p); simpl.
    + now rewrite <- app_assoc.
    + now rewrite app_nil_r.
  - cbn [MessageBus.run MessageBus.puts_of].
    destruct q as [|[p' m] q]; cbn [MessageBus.get].
    + apply IH.
    + specialize (IH q). destruct (MessageBus.run ops q) as [rcv q''].
      cbn [fst snd] in *. simpl.
      destruct (Nat.eqb p' p); simpl; now rewrite IH.
Qed.

End BusFacts.

(** C7. FIFO per producer.  On a bus that starts empty, under any schedule
    of puts by any producers and gets by the one consumer, the messages of
    producer [p] that the consumer received, followed by those of [p] still
    pending, are the messages [p] put, in the order it put them; so when
    [p] put A, B, C and none of them is left pending, the consumer received
    them as A, B, C. *)
Theorem fifo_per_producer (p : nat) (ops : list MessageBus.op) :
  (MessageBus.from_producer p (fst (MessageBus.run ops MessageBus.empty))
   ++ MessageBus.from_producer p (snd (MessageBus.run ops MessageBus.empty)))%list
  = MessageBus.puts_of p ops
  /\ forall A B C : Message,
       MessageBus.puts_of p ops = [A; B; C] ->
       MessageBus.from_producer p (snd (MessageBus.run ops MessageBus.empty)) = [] ->
       MessageBus.from_producer p (fst (MessageBus.run ops MessageBus.empty))
       = [A; B; C].
Proof.
  pose proof (run_preserves_order p ops MessageBus.empty) as H.
  simpl in H. split; [exact H|].
  intros A B C Hputs Hrest. rewrite Hrest, app_nil_r in H. congruence.
Qed.

Lemma fifo_per_producer_witness :
  MessageBus.from_producer 1
    (fst (MessageBus.run Sample.schedule MessageBus.empty))
  = [Sample.A; Sample.B; Sample.C].
Proof.
  apply (proj2 (fifo_per_producer 1 Sample.schedule)); reflexivity.
Defined.

(** ** The composition of [main] *)

Section MainFacts.

Lemma main_wired_when_setup_succeeds (env : Main.Env) :
  Main.is_connected env = inr true ->
  Main.load_abi env = inr tt ->
  Main.eth_contract env = inr tt ->
  Main.wired (snd (Main.main env Main.State0)).
Proof.
  destruct env as [ge ic la ec ga]. cbn [Main.is_connected Main.load_abi
    Main.eth_contract]. intros -> -> ->.
  destruct ga as [[|e|c]|[]]; eval_main; cbn [snd].
  all: match goal with
       | |- Main.wired ?st =>
           exists 0%nat, 1%nat, 2%nat, 3%nat;
           eexists _, _, (firstn 10 (Main.trace st)), (skipn 14 (Main.trace st))
       end.
  all: cbn [Main.trace Main.agent1 Main.agent2 firstn skipn].
  all: repeat match goal with |- _ /\ _ => split end.
  all: try reflexivity.
  all: try (cbn [In]; auto 20; fail).
  all: repeat (constructor;
               [rewrite list_elem_of_In; cbn [In]; intuition discriminate|]);
       constructor.
Qed.

Lemma main_unwired_when_setup_fails (env : Main.Env) :
  Main.is_connected env <> inr true
  \/ Main.load_abi env <> inr tt
  \/ Main.eth_contract env <> inr tt ->
  Main.unwired (snd (Main.main env Main.State0)).
Proof.
  destruct env as [ge ic la ec ga]. cbn [Main.is_connected Main.load_abi
    Main.eth_contract]. intros H.
  destruct ic as [[|e|c]|[|]]; try (eval_main; repeat split; fail);
    destruct la as [[|e|c]|[]]; try (eval_main; repeat split; fail);
    destruct ec as [[|e|c]|[]]; try (eval_main; repeat split; fail).
  exfalso. intuition congruence.
Qed.

End MainFacts.

(** C6. In [main], whatever the surroundings: either the run ends before
    any agent exists and nothing is wired or run, or both agents are built
    first, then the outbox of Agent1 is set to the inbox of Agent2 and the
    outbox of Agent2 to the inbox of Agent1, and only then both are run;
    these two assignments are the only wiring events.  The second case is
    the one that occurs when the connection, the ABI and the contract are
    obtained. *)
Theorem wiring_before_run (env : Main.Env) :
  let s := snd (Main.main env Main.State0) in
  (Main.unwired s \/ Main.wired s)
  /\ (Main.is_connected env = inr true ->
      Main.load_abi env = inr tt ->
      Main.eth_contract env = inr tt ->
      Main.wired s
      /\ filter Main.is_wiring (Main.trace s)
         = [Main.EvSetOutbox "Agent1" 2; Main.EvSetOutbox "Agent2" 0]).
Proof.
  intros s. split.
  - destruct (Main.is_connected env) as [r|[|]] eqn:Hc.
    + left. apply main_unwired_when_setup_fails. left. congruence.
    + destruct (Main.load_abi env) as [r|[]] eqn:Ha.
      * left. apply main_unwired_when_setup_fails. right; left. congruence.
      * destruct (Main.eth_contract env) as [r|[]] eqn:He.
        -- left. apply main_unwired_when_setup_fails. right; right. congruence.
        -- right. now apply main_wired_when_setup_succeeds.
    + left. apply main_unwired_when_setup_fails. left. congruence.
  - intros Hc Ha He. split; [now apply main_wired_when_setup_succeeds|].
    subst s. destruct env as [ge ic la ec ga]. cbn [Main.is_connected
      Main.load_abi Main.eth_contract] in Hc, Ha, He. subst ic la ec.
    destruct ga as [[|e|c]|[]]; eval_main; reflexivity.
Qed.

Lemma wiring_before_run_witness :
  Main.wired (snd (Main.main Sample.env Main.State0)).
Proof.
  exact (proj1 (proj2 (wiring_before_run Sample.env) eq_refl eq_refl eq_refl)).
Defined.

(** * Further properties of the handlers *)

Section TransferOrder.

Variable self : CryptoTransferHandler.t.
Variable m : Message.
Variable w : World.

(** X1. Whatever the client does, the operations [handle] invokes are an
    initial part of: balance query, transaction count, transfer, gas price,
    build, sign, send; each with the source address, one ether in wei, the
    gas limit 100000 and the private key of the handler where the source
    passes them. *)
Theorem transfer_calls_in_order :
  exists new rest,
    world_calls (snd (CryptoTransferHandler.handle self m w))
    = (world_calls w ++ new)%list
    /\ transfer_protocol = (map call_name new ++ rest)%list
    /\ Forall (call_as_written self) new.
Proof.
  open_handle.
  repeat case_oracle;
    (first
       [ exists []; eexists; split; [now rewrite app_nil_r|]
       | eexists; eexists; split; [rewrite <- ?app_assoc; reflexivity|] ]);
    (split; [reflexivity | repeat constructor]).
Qed.

(** X2. [handle] logs exactly one record per message, and that record is
    an error record exactly when no message is returned. *)
Theorem transfer_logged_once :
  exists rec,
    world_log (snd (CryptoTransferHandler.handle self m w))
    = (world_log w ++ [rec])%list
    /\ (returned (CryptoTransferHandler.handle self m w) = []
        <-> exists msg, rec = LogError msg).
Proof.
  open_handle.
  repeat case_oracle; unfold returned; cbn [fst];
    (eexists; split; [reflexivity|]);
    split; try (intros _; eexists; reflexivity); try reflexivity;
    try discriminate; intros [msg H]; discriminate H.
Qed.

(** X3. A transfer is reported only when it was sent: if [handle] returns
    a message, the metadata was a mapping, the balance query returned an
    integer of at least one ether in wei, and the last operation invoked
    is a [send_raw_transaction] that succeeded. *)
Theorem transfer_reported_only_if_sent :
  returned (CryptoTransferHandler.handle self m w) <> [] ->
  exists md b raw tx_hash earlier,
    metadata m = Some md
    /\ balanceOf (CryptoTransferHandler.token_contract self)
         (CryptoTransferHandler.source_address self) = inr (PInt b)
    /\ (to_wei_ether 1 <= b)%Z
    /\ eth_send_raw_transaction (CryptoTransferHandler.web3 self) raw
       = inr tx_hash
    /\ world_calls (snd (CryptoTransferHandler.handle self m w))
       = (earlier ++ [CallSendRawTransaction raw])%list.
Proof.
  open_handle.
  repeat case_oracle; unfold returned; cbn [fst]; intros H;
    try (exfalso; apply H; reflexivity).
  all: match goal with
       | E : py_lt_int ?v _ = inr false |- _ =>
           destruct v as [|[|]|z|]; cbn [py_lt_int] in E;
           try discriminate E; injection E as E; apply Z.ltb_ge in E
       end.
  all: do 5 eexists; repeat split; try eassumption; reflexivity.
Qed.

End TransferOrder.

Lemma transfer_reported_only_if_sent_witness :
  exists md b raw tx_hash earlier,
    metadata Sample.request = Some md
    /\ balanceOf (Sample.contract (inr (PInt (2 * 10 ^ 18)))) "0xabc"
       = inr (PInt b)
    /\ (to_wei_ether 1 <= b)%Z
    /\ eth_send_raw_transaction Sample.node raw = inr tx_hash
    /\ world_calls
         (snd (CryptoTransferHandler.handle
                 (Sample.handler (inr (PInt (2 * 10 ^ 18))))
                 Sample.request World0))
       = (earlier ++ [CallSendRawTransaction raw])%list.
Proof.
  apply (transfer_reported_only_if_sent
           (Sample.handler (inr (PInt (2 * 10 ^ 18)))) Sample.request World0).
  vm_compute. discriminate.
Defined.

(** X4. When the metadata is a mapping, every transfer [handle] asks for
    goes to the value under "target_address" if there is one (whatever
    that value is) and to the fixed address otherwise, for one ether in
    wei; a returned message names the same target and the source address
    of the handler. *)
Theorem transfer_target_from_metadata
    (self : CryptoTransferHandler.t) (m : Message) (md : gmap string PyVal)
    (w : World) :
  metadata m = Some md ->
  exists new,
    world_calls (snd (CryptoTransferHandler.handle self m w))
    = (world_calls w ++ new)%list
    /\ (forall target amount,
           In (CallTransfer target amount) new ->
           target = chosen_target md /\ amount = to_wei_ether 1)
    /\ Forall
         (fun r =>
            (metadata r ≫= fun d => d !! "target_address")
            = Some (chosen_target md)
            /\ (metadata r ≫= fun d => d !! "source_address")
               = Some (PStr (CryptoTransferHandler.source_address self)))
         (returned (CryptoTransferHandler.handle self m w)).
Proof.
  intros Hmd. unfold chosen_target. open_handle. rewrite Hmd.
  repeat case_oracle; unfold returned; cbn [fst]; give_new_calls.
  all: split;
    [ intros target amount Hin; cbn [In] in Hin;
      repeat (destruct Hin as [Hin|Hin];
              [ try discriminate Hin; injection Hin as <- <-;
                split; reflexivity | ]);
      destruct Hin
    | ].
  all: try (constructor; fail).
  all: constructor; [|constructor]; cbn [metadata mbind option_bind]; split.
  all: try (rewrite lookup_insert_ne by discriminate;
            rewrite lookup_insert_ne by discriminate;
            apply lookup_insert_eq).
  all: rewrite lookup_insert_ne by discriminate; apply lookup_insert_eq.
Qed.

Lemma transfer_target_from_metadata_witness :
  exists new,
    world_calls
      (snd (CryptoTransferHandler.handle
              (Sample.handler (inr (PInt (2 * 10 ^ 18))))
              Sample.request_to World0))
    = ([] ++ new)%list
    /\ (forall target amount,
           In (CallTransfer target amount) new ->
           target = chosen_target (<["target_address" := PStr "0xdef"]> ∅)
           /\ amount = to_wei_ether 1)
    /\ Forall
         (fun r =>
            (metadata r ≫= fun d => d !! "target_address")
            = Some (chosen_target (<["target_address" := PStr "0xdef"]> ∅))
            /\ (metadata r ≫= fun d => d !! "source_address")
               = Some (PStr "0xabc"))
         (returned (CryptoTransferHandler.handle
                      (Sample.handler (inr (PInt (2 * 10 ^ 18))))
                      Sample.request_to World0)).
Proof.
  apply (transfer_target_from_metadata
           (Sample.handler (inr (PInt (2 * 10 ^ 18)))) Sample.request_to
           (<["target_address" := PStr "0xdef"]> ∅) World0).
  reflexivity.
Defined.

(** X5. A message without metadata: [handle] fails on the lookup of the
    target before it reaches the client; it invokes no operation of the
    client, logs the error and returns the empty list. *)
Theorem transfer_without_metadata
    (self : CryptoTransferHandler.t) (m : Message) (w : World) :
  metadata m = None ->
  CryptoTransferHandler.handle self m w
  = (inr [],
     mkWorld
       (world_log w
        ++ [LogError ("Error handling transfer: "
                      ++ "'NoneType' object has no attribute 'get'")])
       (world_calls w)).
Proof.
  intros Hmd. open_handle. rewrite Hmd. reflexivity.
Qed.

Lemma transfer_without_metadata_witness :
  CryptoTransferHandler.handle (Sample.handler (inr (PInt (2 * 10 ^ 18))))
    Sample.bare_request World0
  = (inr [],
     mkWorld
       [LogError "Error handling transfer: 'NoneType' object has no attribute 'get'"]
       []).
Proof.
  apply (transfer_without_metadata
           (Sample.handler (inr (PInt (2 * 10 ^ 18)))) Sample.bare_request
           World0).
  reflexivity.
Defined.

(** X6. [handle] reads nothing of a message but its metadata: two messages
    with the same metadata, whatever their types and contents and whether
    [can_handle] accepts them, are handled alike. *)
Theorem transfer_reads_metadata_only
    (self : CryptoTransferHandler.t) (m1 m2 : Message) (w : World) :
  metadata m1 = metadata m2 ->
  CryptoTransferHandler.handle self m1 w
  = CryptoTransferHandler.handle self m2 w.
Proof.
  intros H.
  unfold CryptoTransferHandler.handle, CryptoTransferHandler.handle_try,
    metadata_get.
  rewrite H. reflexivity.
Qed.

Lemma transfer_reads_metadata_only_witness :
  CryptoTransferHandler.can_handle (mkMessage RANDOM "sun moon" (Some ∅)) = false
  /\ CryptoTransferHandler.handle (Sample.handler (inr (PInt (2 * 10 ^ 18))))
       Sample.request World0
     = CryptoTransferHandler.handle (Sample.handler (inr (PInt (2 * 10 ^ 18))))
         (mkMessage RANDOM "sun moon" (Some ∅)) World0.
Proof.
  split; [reflexivity|].
  apply (transfer_reads_metadata_only
           (Sample.handler (inr (PInt (2 * 10 ^ 18)))) Sample.request
           (mkMessage RANDOM "sun moon" (Some ∅)) World0).
  reflexivity.
Defined.

(** ** The balance checker *)

(** X7. One tick of the balance checker queries the balance once,
    converts only what the query returned, logs exactly one record (an
    error record exactly when nothing is returned) and returns at most one
    message. *)
Theorem balance_tick (self : ERC20BalanceChecker.t) (w : World) :
  let out := ERC20BalanceChecker.execute self w in
  let query := CallBalanceOf (ERC20BalanceChecker.address self) in
  exists rec,
    world_log (snd out) = (world_log w ++ [rec])%list
    /\ (returned out = [] <-> exists msg, rec = LogError msg)
    /\ (length (returned out) <= 1)%nat
    /\ (world_calls (snd out) = (world_calls w ++ [query])%list
        \/ exists v,
             balanceOf (ERC20BalanceChecker.token_contract self)
               (ERC20BalanceChecker.address self) = inr v
             /\ world_calls (snd out)
                = (world_calls w ++ [query; CallFromWei v])%list).
Proof.
  intros out query. subst out query. open_execute.
  repeat case_oracle; unfold returned; cbn [fst length];
    (eexists; split; [reflexivity|]);
    (split; [split; [try discriminate; intros _; eexists; reflexivity
                    | try reflexivity; intros [msg H]; discriminate H] |]);
    (split; [lia|]).
  - left. reflexivity.
  - right. eexists. split; [reflexivity|]. now rewrite <- app_assoc.
  - right. eexists. split; [reflexivity|]. now rewrite <- app_assoc.
Qed.

(** X8. When the balance query returns [v] and its conversion to ether
    is rendered as [s], the tick returns one BALANCE message with content
    [s], whose metadata holds the address of the checker, [str(v)] as the
    raw balance and the unit "ether". *)
Theorem balance_report
    (self : ERC20BalanceChecker.t) (w : World) (v : PyVal) (s : string) :
  let address := ERC20BalanceChecker.address self in
  balanceOf (ERC20BalanceChecker.token_contract self) address = inr v ->
  from_wei (ERC20BalanceChecker.web3 self) v = inr s ->
  exists r,
    returned (ERC20BalanceChecker.execute self w) = [r]
    /\ type r = BALANCE
    /\ content r = s
    /\ (metadata r ≫= fun d => d !! "address") = Some (PStr address)
    /\ (metadata r ≫= fun d => d !! "raw_balance") = Some (PStr (py_str v))
    /\ (metadata r ≫= fun d => d !! "unit") = Some (PStr "ether")
    /\ world_log (snd (ERC20BalanceChecker.execute self w))
       = (world_log w
          ++ [LogInfo ("Token balance for " ++ address ++ ": " ++ s ++ " ETH")])%list.
Proof.
  intros address Hb Hf. subst address. open_execute. rewrite Hb, Hf.
  unfold returned. cbn [fst snd world_log].
  eexists. split; [reflexivity|]. cbn [type content metadata mbind option_bind].
  split; [reflexivity|]. split; [reflexivity|].
  split; [apply lookup_insert_eq|].
  split; [rewrite lookup_insert_ne by discriminate; apply lookup_insert_eq|].
  split; [|reflexivity].
  rewrite lookup_insert_ne by discriminate.
  rewrite lookup_insert_ne by discriminate.
  apply lookup_insert_eq.
Qed.

Lemma balance_report_witness :
  exists r,
    returned (ERC20BalanceChecker.execute (Sample.checker (inr (PInt 42))) World0)
    = [r]
    /\ type r = BALANCE
    /\ content r = "42"
    /\ (metadata r ≫= fun d => d !! "address") = Some (PStr "0xabc")
    /\ (metadata r ≫= fun d => d !! "raw_balance") = Some (PStr "42")
    /\ (metadata r ≫= fun d => d !! "unit") = Some (PStr "ether")
    /\ world_log
         (snd (ERC20BalanceChecker.execute (Sample.checker (inr (PInt 42)))
                 World0))
       = [LogInfo "Token balance for 0xabc: 42 ETH"].
Proof.
  apply (balance_report (Sample.checker (inr (PInt 42))) World0 (PInt 42) "42");
    reflexivity.
Defined.

(** ** The handlers together *)

Section HandlersTogether.

Lemma lower_app (a b : string) :
  PyStr.lower (a ++ b) = PyStr.lower a ++ PyStr.lower b.
Proof. induction a as [|c a IH]; simpl; [reflexivity | now rewrite IH]. Qed.

End HandlersTogether.

(** X9. The transfer handler accepts the reply of the Hello handler to a
    message exactly when the content of that message mentions "crypto"
    (in any case): the reply quotes the content, and neither its type nor
    the text put before the quote matches. *)
Theorem hello_reply_seen_by_transfer (m : Message) :
  Forall
    (fun r =>
       CryptoTransferHandler.can_handle r
       = PyStr.contains "crypto" (PyStr.lower (content m)))
    (snd (HelloMessageHandler.handle m)).
Proof.
  constructor; [|constructor].
  unfold CryptoTransferHandler.can_handle. cbn [type content MessageType_eqb orb].
  rewrite lower_app.
  generalize (PyStr.lower (content m)). intros c.
  vm_compute (PyStr.lower "Hello back! Received: ").
  cbn. reflexivity.
Qed.

(** X10. The marker that excludes replies is matched with its exact
    capitals, the greeting without regard to case: a content that begins
    with "hello back!" in some other capitalisation is handled as a fresh
    greeting. *)
Theorem hello_marker_is_case_sensitive (m : Message) :
  PyStr.startswith (PyStr.lower (content m)) "hello back!" = true ->
  PyStr.startswith (content m) "Hello back!" = false ->
  HelloMessageHandler.can_handle m = true.
Proof.
  intros Hl Hs. unfold HelloMessageHandler.can_handle. rewrite Hs.
  apply startswith_spec in Hl. destruct Hl as [r Hr].
  assert (Hc : PyStr.contains "hello" (PyStr.lower (content m)) = true).
  { apply contains_spec. exists "", (" back!" ++ r). rewrite Hr. reflexivity. }
  rewrite Hc, orb_true_r. reflexivity.
Qed.

Lemma hello_marker_is_case_sensitive_witness :
  HelloMessageHandler.can_handle
    (Message_plain HELLO "hello back! Received: hello world") = true.
Proof.
  apply (hello_marker_is_case_sensitive
           (Message_plain HELLO "hello back! Received: hello world"));
    reflexivity.
Defined.

(** ** The random behavior and the handlers *)

(** X11. A random message is accepted by the Hello handler exactly when
    one of its two words is "hello", and by the transfer handler exactly
    when one of them is "crypto". *)
Theorem random_message_triggers (outbox : bus_ref) (r0 r1 : nat) :
  Forall
    (fun r =>
       HelloMessageHandler.can_handle r
       = existsb (String.eqb "hello") (RandomMessageBehavior.sample2 r0 r1)
       /\ CryptoTransferHandler.can_handle r
          = existsb (String.eqb "crypto") (RandomMessageBehavior.sample2 r0 r1))
    (RandomMessageBehavior.execute (RandomMessageBehavior.init outbox) r0 r1).
Proof.
  unfold RandomMessageBehavior.execute, RandomMessageBehavior.sample2.
  change (length RandomMessageBehavior.WORDS) with 10%nat.
  cbn [RandomMessageBehavior.sample_pool nth].
  change (10 - 1)%nat with 9%nat.
  pose proof (Nat.mod_upper_bound r0 10 ltac:(lia)) as H0.
  pose proof (Nat.mod_upper_bound r1 9 ltac:(lia)) as H1.
  revert H0 H1. generalize (r0 mod 10)%nat (r1 mod 9)%nat. intros j0 j1 H0 H1.
  constructor; [|constructor].
  do 10 (destruct j0 as [|j0];
         [ do 9 (destruct j1 as [|j1]; [ split; reflexivity | ]);
           exfalso; lia | ]).
  exfalso; lia.
Qed.



(** * Further properties of [main] and of the script *)

Section SetupFacts.

Variable env : Main.Env.


End SetupFacts.


(** X14. After [main] has wired the agents, the random behavior of each
    still holds the bus that was the outbox of its agent when the agent
    was built, and that bus is no longer the inbox or the outbox of either
    agent. *)
Theorem behavior_keeps_first_outbox (env : Main.Env) :
  let s := snd (Main.main env Main.State0) in
  Main.is_connected env = inr true ->
  Main.load_abi env = inr tt ->
  Main.eth_contract env = inr tt ->
  exists a1 a2 o1 o2,
    Main.agent1 s = Some a1 /\ Main.agent2 s = Some a2
    /\ In (Main.EvAgent "Agent1" (inbox a1) o1) (Main.trace s)
    /\ In (Main.EvAgent "Agent2" (inbox a2) o2) (Main.trace s)
    /\ In (RandomMessageBehaviorObj o1) (behaviors a1)
    /\ In (RandomMessageBehaviorObj o2) (behaviors a2)
    /\ ~ In o1 [inbox a1; outbox a1; inbox a2; outbox a2]
    /\ ~ In o2 [inbox a1; outbox a1; inbox a2; outbox a2].
Proof.
  intros s Hc Ha He. subst s. destruct env as [ge ic la ec ga].
  cbn [Main.is_connected Main.load_abi Main.eth_contract] in Hc, Ha, He.
  subst ic la ec.
  destruct ga as [[|e|c]|[]]; eval_main;
    cbn [snd Main.agent1 Main.agent2 Main.trace];
    (eexists _, _, 1%nat, 3%nat; split; [reflexivity|]; split; [reflexivity|]);
    cbn [inbox outbox behaviors In];
    repeat match goal with |- _ /\ _ => split end;
    auto 20; intuition discriminate.
Qed.

Lemma behavior_keeps_first_outbox_witness :
  let s := snd (Main.main Sample.env Main.State0) in
  exists a1 a2 o1 o2,
    Main.agent1 s = Some a1 /\ Main.agent2 s = Some a2
    /\ In (Main.EvAgent "Agent1" (inbox a1) o1) (Main.trace s)
    /\ In (Main.EvAgent "Agent2" (inbox a2) o2) (Main.trace s)
    /\ In (RandomMessageBehaviorObj o1) (behaviors a1)
    /\ In (RandomMessageBehaviorObj o2) (behaviors a2)
    /\ ~ In o1 [inbox a1; outbox a1; inbox a2; outbox a2]
    /\ ~ In o2 [inbox a1; outbox a1; inbox a2; outbox a2].
Proof.
  apply (behavior_keeps_first_outbox Sample.env); reflexivity.
Defined.

(** X15. [main] lets neither [KeyboardInterrupt] nor an instance of
    [Exception] out, whichever step raises it: it returns, or it passes
    on some other [BaseException]. *)
Theorem main_catches_what_it_names (env : Main.Env) :
  fst (Main.main env Main.State0) = inr tt
  \/ exists class,
       fst (Main.main env Main.State0) = inl (Main.OtherBaseException class).
Proof.
  destruct env as [ge ic la ec ga].
  destruct ic as [[|e|c]|[|]]; try (eval_main; eauto; fail);
    destruct la as [[|e|c]|[]]; try (eval_main; eauto; fail);
    destruct ec as [[|e|c]|[]]; try (eval_main; eauto; fail);
    destruct ga as [[|e|c]|[]]; eval_main; eauto.
Qed.

(** X16. When the node does not answer the connection check, [main]
    builds no bus and no agent, prints that it failed to connect, stops
    nothing and returns. *)
Theorem main_offline (env : Main.Env) :
  Main.is_connected env = inr false ->
  Main.main env Main.State0
  = (inr tt,
     Main.mkState ∅ 0 None None
       [Main.EvPrint
          "An error occurred: Failed to connect to the Ethereum node"]).
Proof.
  destruct env as [ge ic la ec ga]. cbn [Main.is_connected]. intros ->.
  reflexivity.
Qed.

Lemma main_offline_witness :
  Main.main Sample.env_offline Main.State0
  = (inr tt,
     Main.mkState ∅ 0 None None
       [Main.EvPrint
          "An error occurred: Failed to connect to the Ethereum node"]).
Proof.
  apply (main_offline Sample.env_offline). reflexivity.
Defined.

(** X17. Once both agents run, how [main] ends follows how the run ends:
    on a keyboard interrupt it prints the shutdown line and stops Agent1,
    then Agent2; on an exception it prints the error and stops both in the
    same order; when the run just returns, or raises some other
    [BaseException], it prints and stops nothing. *)
Theorem main_shutdown (env : Main.Env) :
  let s := snd (Main.main env Main.State0) in
  Main.is_connected env = inr true ->
  Main.load_abi env = inr tt ->
  Main.eth_contract env = inr tt ->
  exists before,
    Forall (fun ev => match ev with
                      | Main.EvStop _ | Main.EvPrint _ => False
                      | _ => True
                      end) before
    /\ Main.trace s
       = (before
          ++ match Main.gather env with
             | inl Main.KeyboardInterrupt =>
                 [ Main.EvPrint (String "010" "Shutting down agents...");
                   Main.EvStop "Agent1"; Main.EvStop "Agent2" ]
             | inl (Main.Exc e) =>
                 [ Main.EvPrint ("An error occurred: " ++ exc_str e);
                   Main.EvStop "Agent1"; Main.EvStop "Agent2" ]
             | inl (Main.OtherBaseException _) | inr _ => []
             end)%list.
Proof.
  intros s Hc Ha He. subst s. destruct env as [ge ic la ec ga].
  cbn [Main.is_connected Main.load_abi Main.eth_contract Main.gather]
    in Hc, Ha, He |- *.
  subst ic la ec.
  destruct ga as [[|e|c]|[]]; eval_main; cbn [snd Main.trace];
    match goal with
    | |- exists before, _ /\ ?t = _ => exists (firstn 14 t)
    end;
    (split; [cbn [firstn]; repeat constructor | reflexivity]).
Qed.

Lemma main_shutdown_witness :
  let s := snd (Main.main Sample.env Main.State0) in
  exists before,
    Forall (fun ev => match ev with
                      | Main.EvStop _ | Main.EvPrint _ => False
                      | _ => True
                      end) before
    /\ Main.trace s
       = (before
          ++ [ Main.EvPrint (String "010" "Shutting down agents...");
               Main.EvStop "Agent1"; Main.EvStop "Agent2" ])%list.
Proof.
  apply (main_shutdown Sample.env); reflexivity.
Defined.

(** ** The script *)

Section ScriptFacts.

Variable env : Main.Env.

Lemma not_getenv_false (var : string) :
  Script.not_getenv env var = false
  <-> exists c rest, Main.getenv env var = Some (String c rest).
Proof.
  unfold Script.not_getenv.
  destruct (Main.getenv env var) as [[|c rest]|]; split;
    try discriminate; try (intros (c' & rest' & H); discriminate H).
  - intros _. eauto.
  - reflexivity.
Qed.

Lemma missing_vars_nil :
  Script.missing_vars env = []
  <-> forall var, In var Script.required_env_vars ->
                  Script.not_getenv env var = false.
Proof.
  unfold Script.missing_vars. split.
  - intros H var Hin.
    destruct (Script.not_getenv env var) eqn:E; [|reflexivity].
    assert (Hm : In var (List.filter (Script.not_getenv env)
                           Script.required_env_vars))
      by (apply List.filter_In; split; assumption).
    rewrite H in Hm. destruct Hm.
  - intros H. induction Script.required_env_vars as [|v l IH]; simpl.
    + reflexivity.
    + rewrite (H v) by (left; reflexivity).
      apply IH. intros var Hin. apply H. right. exact Hin.
Qed.

End ScriptFacts.

(** X18. The script reaches [asyncio.run(main())] exactly when each of
    RPC_NODE_URL, TOKEN_ADDRESS, ETHEREUM_ADDRESS and PRIVATE_KEY is set to
    a non-empty string; [main] then starts from the state the script was
    in, the script having printed nothing of its own. *)
Theorem script_runs_main (env : Main.Env) (s : Main.State) :
  let set_and_not_empty var :=
    exists c rest, Main.getenv env var = Some (String c rest) in
  (set_and_not_empty "RPC_NODE_URL"
   /\ set_and_not_empty "TOKEN_ADDRESS"
   /\ set_and_not_empty "ETHEREUM_ADDRESS"
   /\ set_and_not_empty "PRIVATE_KEY"
   <-> exists r, fst (Script.script env s) = Script.Started r)
  /\ forall r,
       fst (Script.script env s) = Script.Started r ->
       r = fst (Main.main env s)
       /\ snd (Script.script env s) = snd (Main.main env s).
Proof.
  intros set_and_not_empty. subst set_and_not_empty. cbv beta. split.
  - rewrite <- !not_getenv_false. unfold Script.script. split.
    + intros (H1 & H2 & H3 & H4).
      assert (Hm : Script.missing_vars env = []).
      { apply missing_vars_nil. intros var Hin. cbn [In Script.required_env_vars] in Hin.
        intuition (subst; assumption). }
      rewrite Hm. destruct (Main.main env s). eauto.
    + intros [r H].
      destruct (Script.missing_vars env) as [|v l] eqn:E; [|discriminate H].
      pose proof (proj1 (missing_vars_nil env) E) as Hset.
      repeat split; apply Hset; cbn; tauto.
  - intros r H. unfold Script.script in *.
    destruct (Script.missing_vars env) as [|v l]; [|discriminate H].
    destruct (Main.main env s) as [r' s']. cbn [fst snd] in *.
    injection H as <-. split; reflexivity.
Qed.

Lemma script_runs_main_witness :
  exists r, fst (Script.script Sample.env Main.State0) = Script.Started r.
Proof.
  apply (proj1 (proj1 (script_runs_main Sample.env Main.State0))).
  repeat split; exists "s"%char, "et"; reflexivity.
Defined.

(** X19. When a required variable is not set, or set to the empty string,
    the script exits with code 1 without building a bus or an agent: all
    it does is print one line that lists the required variables that are
    unset or empty, that one among them, each once. *)
Theorem script_refuses (env : Main.Env) (s : Main.State) (var : string) :
  In var Script.required_env_vars ->
  Main.getenv env var = None \/ Main.getenv env var = Some "" ->
  exists names,
    Script.script env s
    = (Script.Exit 1,
       Main.mkState (Main.buses s) (Main.next_bus s) (Main.agent1 s)
         (Main.agent2 s)
         (Main.trace s
          ++ [Main.EvPrint ("Missing required environment variables: "
                            ++ Script.join ", " names)])%list)
    /\ In var names
    /\ (forall n, In n names
                  <-> In n Script.required_env_vars
                      /\ (Main.getenv env n = None
                          \/ Main.getenv env n = Some ""))
    /\ List.NoDup names.
Proof.
  intros Hin Hunset.
  assert (Hchar : forall n, Script.not_getenv env n = true
                            <-> Main.getenv env n = None
                                \/ Main.getenv env n = Some "").
  { intros n. unfold Script.not_getenv.
    destruct (Main.getenv env n) as [[|c rest]|];
      (split; [intros H | intros [H|H]]); try discriminate H; auto. }
  assert (Hvar : In var (Script.missing_vars env)).
  { apply List.filter_In. split; [exact Hin | now apply Hchar]. }
  exists (Script.missing_vars env). split; [|split; [exact Hvar|split]].
  - unfold Script.script.
    destruct (Script.missing_vars env) as [|v l]; [destruct Hvar|reflexivity].
  - intros n. unfold Script.missing_vars. rewrite List.filter_In, Hchar.
    reflexivity.
  - unfold Script.missing_vars. apply List.NoDup_filter.
    repeat (constructor; [cbn [In]; intuition discriminate|]). constructor.
Qed.

Lemma script_refuses_witness :
  exists names,
    Script.script Sample.env_incomplete Main.State0
    = (Script.Exit 1,
       Main.mkState ∅ 0 None None
         ([] ++ [Main.EvPrint ("Missing required environment variables: "
                               ++ Script.join ", " names)])%list)
    /\ In "PRIVATE_KEY" names
    /\ (forall n, In n names
                  <-> In n Script.required_env_vars
                      /\ (Main.getenv Sample.env_incomplete n = None
                          \/ Main.getenv Sample.env_incomplete n = Some ""))
    /\ List.NoDup names.
Proof.
  apply (script_refuses Sample.env_incomplete Main.State0 "PRIVATE_KEY").
  - cbn. tauto.
  - right. reflexivity.
Defined.

(** X20. When the script has handed over to [main] and the agents are
    built, the transfer handler and the balance checker of each agent hold
    an address, and the transfer handler a private key, that are set and
    not empty. *)
Theorem script_registers_set_credentials (env : Main.Env) :
  let s := snd (Script.script env Main.State0) in
  Script.missing_vars env = [] ->
  Main.is_connected env = inr true ->
  Main.load_abi env = inr tt ->
  Main.eth_contract env = inr tt ->
  exists a1 a2 address key,
    Main.agent1 s = Some a1 /\ Main.agent2 s = Some a2
    /\ address <> "" /\ key <> ""
    /\ In (CryptoTransferHandlerObj (Some address) (Some key)) (handlers a1)
    /\ In (CryptoTransferHandlerObj (Some address) (Some key)) (handlers a2)
    /\ In (ERC20BalanceCheckerObj (Some address)) (behaviors a1)
    /\ In (ERC20BalanceCheckerObj (Some address)) (behaviors a2).
Proof.
  intros s Hm Hc Ha He. subst s.
  pose proof (proj1 (missing_vars_nil env) Hm) as Hset.
  assert (Haddr : Script.not_getenv env "ETHEREUM_ADDRESS" = false)
    by (apply Hset; cbn; tauto).
  assert (Hkey : Script.not_getenv env "PRIVATE_KEY" = false)
    by (apply Hset; cbn; tauto).
  apply not_getenv_false in Haddr, Hkey.
  destruct Haddr as (c1 & r1 & Haddr). destruct Hkey as (c2 & r2 & Hkey).
  unfold Script.script. rewrite Hm.
  destruct env as [ge ic la ec ga].
  cbn [Main.is_connected Main.load_abi Main.eth_contract Main.getenv]
    in Hc, Ha, He, Haddr, Hkey.
  subst ic la ec.
  destruct ga as [[|e|c]|[]];
    eval_main; cbn [snd Main.agent1 Main.agent2];
    (eexists _, _, (String c1 r1), (String c2 r2);
     split; [reflexivity|]; split; [reflexivity|]);
    cbn [handlers behaviors In]; rewrite Haddr, Hkey;
    repeat match goal with |- _ /\ _ => split end;
    try discriminate; auto.
Qed.

Lemma script_registers_set_credentials_witness :
  let s := snd (Script.script Sample.env Main.State0) in
  exists a1 a2 address key,
    Main.agent1 s = Some a1 /\ Main.agent2 s = Some a2
    /\ address <> "" /\ key <> ""
    /\ In (CryptoTransferHandlerObj (Some address) (Some key)) (handlers a1)
    /\ In (CryptoTransferHandlerObj (Some address) (Some key)) (handlers a2)
    /\ In (ERC20BalanceCheckerObj (Some address)) (behaviors a1)
    /\ In (ERC20BalanceCheckerObj (Some address)) (behaviors a2).
Proof.
  apply (script_registers_set_credentials Sample.env); reflexivity.
Defined.
